(** * Smart Transit AI Agents: a shallow embedding of [ai-agents/main.py]

    The service is one Python module: four "agent" classes, three FastAPI
    handlers and one outbound HTTP call.  Python values are embedded as the
    inductive [pyval], exceptions as [exn], pure fallible code in the sum
    [result], and the two effects of the handlers (the outbound GET and the
    wall clock) as nodes of the small free monad [io], interpreted against a
    [World] by [run]. *)

From Stdlib Require Import ZArith String Ascii List Lia.
From stdpp Require Import base option list sorting gmap strings.

Set Warnings "-register-all".

Local Open Scope Z_scope.
Local Open Scope string_scope.
Local Open Scope list_scope.

(** ** Python values *)

(** [class RouteRequest(BaseModel)] *)
Record RouteRequest : Type := {
  origin : string;
  destination : string;
  language : string;
  mode_preference : string;
  accessibility_needs : bool
}.

(** [class RouteOption(BaseModel)] *)
Record RouteOption : Type := {
  mode : string;
  duration : string;
  cost : string;
  steps : list string;
  accessibility_score : Z
}.

(** The values the handlers build and receive.  A [dict] is an association
    list in insertion order (Python dicts keep it); every dict built here has
    distinct keys.  [PFloat] carries the binary64 bit pattern of a JSON
    number that is not an integer. *)
Inductive pyval : Type :=
| PNone
| PBool (b : bool)
| PInt (z : Z)
| PFloat (bits : Z)
| PStr (s : string)
| PList (l : list pyval)
| PDict (d : list (string * pyval))
| PRouteOption (r : RouteOption).

(** ** Exceptions and fallible pure code *)

Inductive exn : Type :=
| AttributeError (msg : string)
| ValueError (msg : string)
| ConnectionError
| Timeout
| RequestException
| JSONDecodeError.

Definition result (A : Type) : Type := exn + A.

Definition ok {A} (a : A) : result A := inr a.
Definition raise {A} (e : exn) : result A := inl e.

Definition rbind {A B} (m : result A) (f : A -> result B) : result B :=
  match m with
  | inl e => inl e
  | inr a => f a
  end.

Declare Scope result_scope.
Delimit Scope result_scope with result.
Notation "x <-? m ; k" := (rbind m (fun x => k))
  (at level 100, m at next level, right associativity) : result_scope.

Fixpoint rmap {A B} (f : A -> result B) (l : list A) : result (list B) :=
  match l with
  | [] => ok []
  | x :: l' => (y <-? f x; ys <-? rmap f l'; ok (y :: ys))%result
  end.

(** ** Effects *)

(** What [requests.get] hands back: an object with [status_code] and a
    [json()] method, which raises on a body that is not JSON. *)
Record Response : Type := {
  status_code : Z;
  json : result pyval
}.

Inductive get_outcome : Type :=
| GetRaises (e : exn)
| GetReturns (r : Response).

(** An outbound call as written at the call site: the URL and the keyword
    arguments passed along with it. *)
Record http_call : Type := {
  call_url : string;
  call_kwargs : list (string * pyval)
}.

Inductive io (A : Type) : Type :=
| Ret (a : A)
| Raise (e : exn)
| RequestsGet (c : http_call) (k : get_outcome -> io A)
| DatetimeNow (k : string -> io A).

Arguments Ret {A} a.
Arguments Raise {A} e.
Arguments RequestsGet {A} c k.
Arguments DatetimeNow {A} k.

Fixpoint bind {A B} (m : io A) (f : A -> io B) : io B :=
  match m with
  | Ret a => f a
  | Raise e => Raise e
  | RequestsGet c k => RequestsGet c (fun o => bind (k o) f)
  | DatetimeNow k => DatetimeNow (fun t => bind (k t) f)
  end.

(** [try: m  except: h] with a bare [except], which catches everything. *)
Fixpoint try_except {A} (m : io A) (h : exn -> io A) : io A :=
  match m with
  | Ret a => Ret a
  | Raise e => h e
  | RequestsGet c k => RequestsGet c (fun o => try_except (k o) h)
  | DatetimeNow k => DatetimeNow (fun t => try_except (k t) h)
  end.

Definition lift {A} (m : result A) : io A :=
  match m with
  | inl e => Raise e
  | inr a => Ret a
  end.

Declare Scope io_scope.
Delimit Scope io_scope with io.
Notation "x <- m ;; k" := (bind m (fun x => k))
  (at level 100, m at next level, right associativity) : io_scope.

(** [requests.get(url, **kwargs)] *)
Definition requests_get (url : string) (kwargs : list (string * pyval)) : io Response :=
  RequestsGet {| call_url := url; call_kwargs := kwargs |}
    (fun o => match o with
              | GetRaises e => Raise e
              | GetReturns r => Ret r
              end).

(** [datetime.now().isoformat()] *)
Definition datetime_now_isoformat : io string := DatetimeNow Ret.

(** The outside of the process: how the network answers a GET, and the
    clock reading. *)
Record World : Type := {
  backend : http_call -> get_outcome;
  clock : string
}.

(** Running a handler in a world gives what it returns or raises, and the
    outbound calls it issued, in order. *)
Fixpoint run {A} (w : World) (m : io A) : result A * list http_call :=
  match m with
  | Ret a => (ok a, [])
  | Raise e => (raise e, [])
  | RequestsGet c k =>
      let '(r, calls) := run w (k (backend w c)) in (r, c :: calls)
  | DatetimeNow k => run w (k (clock w))
  end.

(** ** The Python built-ins the module uses *)

Module Py.

(** [d.get(key)] and [key in d] on a dict. *)
Fixpoint dict_get (key : string) (d : list (string * pyval)) : option pyval :=
match d with
| [] => None
| (k, v) :: d' => if String.eqb key k then Some v else dict_get key d'
end.

Definition dict_contains (key : string) (d : list (string * pyval)) : bool :=
match dict_get key d with
| Some _ => true
| None => false
end.

(** [obj.get(key)]: only a dict has the method; a missing key gives [None]. *)
Definition get (obj : pyval) (key : string) : result pyval :=
match obj with
| PDict d => ok (default PNone (dict_get key d))
| _ => raise (AttributeError "object has no attribute 'get'")
end.

(** Is [p] a prefix of [s]? *)
Fixpoint startswith (p s : string) : bool :=
match p, s with
| EmptyString, _ => true
| String a p', String b s' => Ascii.eqb a b && startswith p' s'
| String _ _, EmptyString => false
end.

(** [s.replace(old, new)] for a non-empty [old]: every occurrence, left to
  right, without overlap.  [skip] counts the characters of a match that
  are still to be dropped. *)
Fixpoint replace_from (skip : nat) (old new s : string) : string :=
match s with
| EmptyString => EmptyString
| String c s' =>
    match skip with
    | S n => replace_from n old new s'
    | O =>
        if startswith old s
        then new ++ replace_from (Nat.pred (String.length old)) old new s'
        else String c (replace_from O old new s')
    end
end.

Definition replace (s old new : string) : string := replace_from O old new s.

(** ASCII white space as [str.strip] and [int] see it. *)
Definition isspace (c : ascii) : bool :=
let n := N_of_ascii c in
((9 <=? n) && (n <=? 13) || (28 <=? n) && (n <=? 32))%N.

Definition isdigit (c : ascii) : bool :=
let n := N_of_ascii c in ((48 <=? n) && (n <=? 57))%N.

Definition digit_value (c : ascii) : Z := Z.of_N (N_of_ascii c) - 48.

Fixpoint lstrip (s : string) : string :=
match s with
| String c s' => if isspace c then lstrip s' else s
| EmptyString => EmptyString
end.

Fixpoint rstrip (s : string) : string :=
match s with
| EmptyString => EmptyString
| String c s' =>
    match rstrip s' with
    | EmptyString => if isspace c then EmptyString else String c EmptyString
    | t => String c t
    end
end.

Definition strip (s : string) : string := rstrip (lstrip s).

(** Decimal digits with single underscores between them; [seen] tells
  whether the previous character was a digit. *)
Fixpoint digits (acc : Z) (seen : bool) (s : string) : option Z :=
match s with
| EmptyString => if seen then Some acc else None
| String c s' =>
    if isdigit c then digits (10 * acc + digit_value c) true s'
    else if Ascii.eqb c "_" then (if seen then digits acc false s' else None)
    else None
end.

(** [int(s)] on a [str] of ASCII characters: surrounding white space, an
  optional sign, then the digits; anything else is a [ValueError]. *)
Definition int (s : string) : result Z :=
let body :=
  match strip s with
  | String "-" t => option_map Z.opp (digits 0 false t)
  | String "+" t => digits 0 false t
  | t => digits 0 false t
  end in
match body with
| Some z => ok z
| None => raise (ValueError "invalid literal for int() with base 10")
end.

(** [sorted(l, key=...)]: the keys are computed first, once each and in
  order, then the elements are arranged by a stable sort that compares
  keys with [<] only. *)
Section Sorted.
Context {K A : Type} (lt : K -> K -> bool).

Fixpoint insert_sorted (x : K * A) (l : list (K * A)) : list (K * A) :=
  match l with
  | [] => [x]
  | y :: l' => if lt y.1 x.1 then y :: insert_sorted x l' else x :: y :: l'
  end.

Definition sort_keyed (l : list (K * A)) : list (K * A) :=
  foldr insert_sorted [] l.

Definition sorted (l : list A) (key : A -> result K) : result (list A) :=
  (ks <-? rmap key l; ok (map snd (sort_keyed (combine ks l))))%result.
End Sorted.

(** [<] on [str] and on [int]. *)
Definition str_lt (a b : string) : bool := String.ltb a b.
Definition int_lt (a b : Z) : bool := Z.ltb a b.

End Py.

(** ** The agents *)

(** [class DataAggregationAgent] *)
Module DataAggregationAgent.

Record t : Type := { name : string }.

Definition init : t := {| name := "Data Aggregation Agent" |}.

Definition health_url : string := "http://localhost:3000/api/health".

Definition offline_fallback : pyval :=
  PDict [("status", PStr "backend_offline"); ("using_cache", PBool true)].

(** The [try] block returns [response.json()] on a 200 and runs off its
    end otherwise, so that the function returns [None]; the bare [except]
    turns whatever was raised inside the block into the fallback dict. *)
Definition get_transport_data (self : t) : io pyval :=
  try_except
    (response <- requests_get health_url [] ;;
     if Z.eqb (status_code response) 200
     then lift (json response)
     else Ret PNone)%io
    (fun _ => Ret offline_fallback).

Definition route_row (id : Z) (nm : string) (modes : list string) (distance : Z) : pyval :=
  PDict [("id", PInt id); ("name", PStr nm);
         ("modes", PList (map PStr modes)); ("distance", PInt distance)].

Definition get_sri_lankan_routes (self : t) : pyval :=
  PDict [("routes", PList [route_row 1 "Colombo-Galle" ["train"; "bus"] 119;
                           route_row 2 "Colombo-Kandy" ["train"; "bus"] 115;
                           route_row 3 "Colombo-Negombo" ["bus"] 37]);
         ("real_time_status", PStr "active")].

End DataAggregationAgent.

(** [class RouteOptimizationAgent] *)
Module RouteOptimizationAgent.

Record t : Type := { name : string }.

Definition init : t := {| name := "Route Optimization Agent" |}.

Definition train_bus : RouteOption :=
  {| mode := "Train + Bus";
     duration := "2h 15m";
     cost := "Rs. 180";
     steps := ["Walk to Fort Station (3min)"; "Train to Galle (1h 50m)";
               "Walk to destination (5min)"];
     accessibility_score := 8 |}.

Definition express_bus : RouteOption :=
  {| mode := "Express Bus";
     duration := "2h 45m";
     cost := "Rs. 250";
     steps := ["Walk to bus stop (2min)"; "Express bus to Galle (2h 35m)";
               "Walk to destination (3min)"];
     accessibility_score := 6 |}.

Definition base_routes : list RouteOption := [train_bus; express_bus].

(** [lambda x: int(x.cost.replace("Rs. ", ""))] *)
Definition cost_key (x : RouteOption) : result Z :=
  Py.int (Py.replace (cost x) "Rs. " "").

(** [lambda x: x.duration] *)
Definition duration_key (x : RouteOption) : result string := ok (duration x).

Definition optimize_route (self : t) (request : RouteRequest)
  : result (list RouteOption) :=
  if String.eqb (mode_preference request) "cheapest" then
    Py.sorted Py.int_lt base_routes cost_key
  else if String.eqb (mode_preference request) "fastest" then
    Py.sorted Py.str_lt base_routes duration_key
  else ok base_routes.

End RouteOptimizationAgent.

(** [class PersonalizationAgent] *)
Module PersonalizationAgent.

Record t : Type := {
  name : string;
  user_preferences : gmap string pyval
}.

Definition init : t :=
  {| name := "Personalization Agent"; user_preferences := ∅ |}.

(** [self.user_preferences[user_id] = preference] *)
Definition learn_preference (self : t) (user_id : string) (preference : pyval) : t :=
  {| name := name self;
     user_preferences := <[user_id := preference]> (user_preferences self) |}.

Definition default_suggestions : pyval :=
  PDict [("mode", PStr "fastest"); ("accessibility", PBool false)].

Definition get_personalized_suggestions (self : t) (user_id : string) : pyval :=
  match user_preferences self !! user_id with
  | Some preference => preference
  | None => default_suggestions
  end.

End PersonalizationAgent.

(** [class LanguageAgent] *)
Module LanguageAgent.

Record t : Type := { name : string }.

Definition init : t := {| name := "Language & Accessibility Agent" |}.

Definition phrases (l : list (string * string)) : pyval :=
  PDict (map (fun kv => (kv.1, PStr kv.2)) l).

(** The local [translations] table. *)
Definition translations : list (string * pyval) :=
  [("si", phrases [("Train + Bus", "කොමු ගිණුම + බස්");
                   ("Express Bus", "වේගවත් බස්");
                   ("Walk to", "ගමන් කරන්න");
                   ("duration", "කාලය")]);
   ("ta", phrases [("Train + Bus", "புகைவண்டி + பேருந்து");
                   ("Express Bus", "விரைவு பேருந்து")])].

Definition translate_response (self : t) (response : pyval) (language : string) : pyval :=
  if Py.dict_contains language translations then
    PDict [("translated", PBool true); ("language", PStr language); ("data", response)]
  else response.

End LanguageAgent.

(** ** The application: the four module-level agents and the handlers *)

Record App : Type := {
  data_agent : DataAggregationAgent.t;
  route_agent : RouteOptimizationAgent.t;
  personalization_agent : PersonalizationAgent.t;
  language_agent : LanguageAgent.t
}.

(** The agents as the module creates them when it is loaded. *)
Definition app_init : App :=
  {| data_agent := DataAggregationAgent.init;
     route_agent := RouteOptimizationAgent.init;
     personalization_agent := PersonalizationAgent.init;
     language_agent := LanguageAgent.init |}.


(** [POST /api/plan-journey] *)
Definition plan_journey (app : App) (request : RouteRequest) : io pyval :=
  (transport_data <- DataAggregationAgent.get_transport_data (data_agent app) ;;
   let route_network := DataAggregationAgent.get_sri_lankan_routes (data_agent app) in
   optimized_routes <- lift (RouteOptimizationAgent.optimize_route (route_agent app) request) ;;
   let personalized :=
     PersonalizationAgent.get_personalized_suggestions
       (personalization_agent app) "default_user" in
   let final_response :=
     LanguageAgent.translate_response (language_agent app)
       (PDict [("origin", PStr (origin request));
               ("destination", PStr (destination request));
               ("routes", PList (map PRouteOption optimized_routes));
               ("preference_applied", PStr (mode_preference request));
               ("accessibility_considered", PBool (accessibility_needs request))])
       (language request) in
   timestamp <- datetime_now_isoformat ;;
   backend_status <- lift (Py.get transport_data "status") ;;
   Ret (PDict [("success", PBool true);
               ("processed_by", PStr "7 AI agents");
               ("timestamp", PStr timestamp);
               ("backend_status", backend_status);
               ("journey_options", final_response)]))%io.

Definition agent_entry (nm : string) : pyval :=
  PDict [("name", PStr nm); ("status", PStr "active")].

(** [GET /api/agents/status] *)
Definition agents_status (app : App) : io pyval :=
  Ret (PDict [("agents",
               PList [agent_entry (DataAggregationAgent.name (data_agent app));
                      agent_entry (RouteOptimizationAgent.name (route_agent app));
                      agent_entry (PersonalizationAgent.name (personalization_agent app));
                      agent_entry (LanguageAgent.name (language_agent app))]);
              ("total_agents", PInt 4);
              ("system_health", PStr "optimal")]).

(** ** Vocabulary of the statements *)

(** The one outbound call of the module, as [get_transport_data] writes it:
    the URL and nothing else. *)
Definition health_check_call : http_call :=
  {| call_url := DataAggregationAgent.health_url; call_kwargs := [] |}.

(** The [timeout=] argument of a call, when the call site gives one. *)
Definition call_timeout (c : http_call) : option pyval :=
  Py.dict_get "timeout" (call_kwargs c).

(** What [get_transport_data] makes of the answer to the health check. *)
Definition transport_data_of (o : get_outcome) : pyval :=
  match o with
  | GetRaises _ => DataAggregationAgent.offline_fallback
  | GetReturns r =>
      if Z.eqb (status_code r) 200
      then match json r with
           | inl _ => DataAggregationAgent.offline_fallback
           | inr v => v
           end
      else PNone
  end.

(** The dict handed to the translator by [plan_journey]. *)
Definition journey_payload (request : RouteRequest) (routes : list RouteOption) : pyval :=
  PDict [("origin", PStr (origin request));
         ("destination", PStr (destination request));
         ("routes", PList (map PRouteOption routes));
         ("preference_applied", PStr (mode_preference request));
         ("accessibility_considered", PBool (accessibility_needs request))].

(** The body of a successful [plan_journey] response. *)
Definition journey_response (timestamp : string) (backend_status journey_options : pyval) : pyval :=
  PDict [("success", PBool true);
         ("processed_by", PStr "7 AI agents");
         ("timestamp", PStr timestamp);
         ("backend_status", backend_status);
         ("journey_options", journey_options)].

(** A history of [learn_preference] calls replayed on an agent, oldest first. *)
Definition learn_all (self : PersonalizationAgent.t) (writes : list (string * pyval))
  : PersonalizationAgent.t :=
  foldl (fun agent w => PersonalizationAgent.learn_preference agent w.1 w.2) self writes.

(** The application with another personalization store. *)
Definition with_user_preferences (app : App) (prefs : gmap string pyval) : App :=
  {| data_agent := data_agent app;
     route_agent := route_agent app;
     personalization_agent :=
       {| PersonalizationAgent.name := PersonalizationAgent.name (personalization_agent app);
          PersonalizationAgent.user_preferences := prefs |};
     language_agent := language_agent app |}.

(** Lexicographic order on strings by character code. *)
Inductive lex_lt : string -> string -> Prop :=
| lex_lt_nil c s : lex_lt EmptyString (String c s)
| lex_lt_head c1 c2 s1 s2 :
    (N_of_ascii c1 < N_of_ascii c2)%N -> lex_lt (String c1 s1) (String c2 s2)
| lex_lt_tail c s1 s2 : lex_lt s1 s2 -> lex_lt (String c s1) (String c s2).

(** Order of two keyed elements under a key comparison [lt]: the second
    key is not below the first. *)
Definition key_le {K A} (lt : K -> K -> bool) (x y : K * A) : Prop :=
  lt y.1 x.1 = false.

(** Sample inputs. *)
Definition sample_request (preference lang : string) (access : bool) : RouteRequest :=
  {| origin := "Colombo"; destination := "Galle"; language := lang;
     mode_preference := preference; accessibility_needs := access |}.

Definition world_with (o : get_outcome) : World :=
  {| backend := fun _ => o; clock := "2024-01-01T00:00:00" |}.

(** ** Further vocabulary *)

(** [RouteRequest(origin=..., destination=..., ...)]: a field that the
    caller leaves out takes the default written in the class. *)
Definition RouteRequest_new (o d : string) (lang preference : option string)
    (access : option bool) : RouteRequest :=
  {| origin := o;
     destination := d;
     language := default "en" lang;
     mode_preference := default "fastest" preference;
     accessibility_needs := default false access |}.

(** The application with another personalization agent object. *)
Definition with_personalization_agent (app : App) (agent : PersonalizationAgent.t) : App :=
  {| data_agent := data_agent app;
     route_agent := route_agent app;
     personalization_agent := agent;
     language_agent := language_agent app |}.

(** Every character of a string passes a test. *)
Definition all_chars (P : ascii -> bool) (s : string) : bool :=
  forallb P (list_ascii_of_string s).





(** Lexicographic order, equal strings included. *)
Definition lex_le (a b : string) : Prop := a = b \/ lex_lt a b.

(** The options of a list whose cheapest-key is [k], in list order. *)
Definition with_cost (k : Z) (l : list RouteOption) : list RouteOption :=
  List.filter
    (fun x => match RouteOptimizationAgent.cost_key x with
              | inr z => Z.eqb z k
              | inl _ => false
              end) l.

(** A route option that differs from Train + Bus in its cost only. *)
Definition priced (c : string) : RouteOption :=
  {| mode := "Train + Bus"; duration := "2h 15m"; cost := c;
     steps := []; accessibility_score := 8 |}.

(** * Properties *)

(** ** The interpreter *)

Lemma run_bind {A B} (w : World) (m : io A) (f : A -> io B) :
  run w (bind m f) =
  match run w m with
  | (inl e, calls) => (inl e, calls)
  | (inr a, calls) => let '(r, calls') := run w (f a) in (r, calls ++ calls')
  end.
Proof.
  induction m as [a | e | c k IH | k IH]; simpl.
  - by destruct (run w (f a)).
  - done.
  - rewrite IH. destruct (run w (k (backend w c))) as [[e | a] calls]; [done |].
    by destruct (run w (f a)).
  - apply IH.
Qed.

Lemma run_try_except {A} (w : World) (m : io A) (h : exn -> io A) :
  run w (try_except m h) =
  match run w m with
  | (inl e, calls) => let '(r, calls') := run w (h e) in (r, calls ++ calls')
  | (inr a, calls) => (inr a, calls)
  end.
Proof.
  induction m as [a | e | c k IH | k IH]; simpl.
  - done.
  - by destruct (run w (h e)).
  - rewrite IH. destruct (run w (k (backend w c))) as [[e | a] calls]; [| done].
    by destruct (run w (h e)).
  - apply IH.
Qed.

Lemma run_lift {A} (w : World) (m : result A) : run w (lift m) = (m, []).
Proof. by destruct m. Qed.

(** ** Data aggregation *)

Lemma run_get_transport_data (w : World) (self : DataAggregationAgent.t) :
  run w (DataAggregationAgent.get_transport_data self) =
  (ok (transport_data_of (backend w health_check_call)), [health_check_call]).
Proof.
  unfold DataAggregationAgent.get_transport_data.
  rewrite run_try_except. simpl. fold health_check_call.
  destruct (backend w health_check_call) as [e | r]; simpl; [done |].
  destruct (Z.eqb (status_code r) 200); simpl; [| done].
  by destruct (json r).
Qed.

(** [plan_journey] issues the health check and nothing else, and its result
    is assembled from the transport data, the optimizer's routes and the
    clock. *)
Lemma run_plan_journey (w : World) (app : App) (request : RouteRequest) :
  run w (plan_journey app request) =
  ((routes <-? RouteOptimizationAgent.optimize_route (route_agent app) request;
    backend_status <-? Py.get (transport_data_of (backend w health_check_call)) "status";
    ok (journey_response (clock w) backend_status
          (LanguageAgent.translate_response (language_agent app)
             (journey_payload request routes) (language request))))%result,
   [health_check_call]).
Proof.
  unfold plan_journey. rewrite run_bind, run_get_transport_data.
  unfold ok. cbv beta iota zeta. rewrite run_bind, run_lift.
  destruct (RouteOptimizationAgent.optimize_route _ _) as [e | routes]; [done |].
  cbn [rbind]. fold (journey_payload request routes).
  unfold datetime_now_isoformat. cbn [bind run].
  rewrite run_bind, run_lift.
  by destruct (Py.get _ _) as [e | status].
Qed.

(** ** [sorted] *)

Section SortedFacts.
Context {K A : Type} (lt : K -> K -> bool).
Hypothesis lt_asym : forall a b, lt a b = true -> lt b a = false.
Hypothesis lt_negtrans :
  forall a b c, lt b a = false -> lt c b = false -> lt c a = false.

Lemma insert_sorted_perm (x : K * A) l : Py.insert_sorted lt x l ≡ₚ x :: l.
Proof using Type.
  induction l as [| y l IH]; simpl; [done |].
  destruct (lt y.1 x.1); [| done].
  rewrite IH. apply Permutation_swap.
Qed.

Lemma sort_keyed_perm (l : list (K * A)) : Py.sort_keyed lt l ≡ₚ l.
Proof using Type.
  induction l as [| x l IH]; simpl; [done |].
  by rewrite insert_sorted_perm, IH.
Qed.

Lemma insert_sorted_sorted (x : K * A) l :
  StronglySorted (key_le lt) l -> StronglySorted (key_le lt) (Py.insert_sorted lt x l).
Proof using lt_asym lt_negtrans.
  induction l as [| y l IH]; simpl; intros Hl.
  - repeat constructor.
  - apply StronglySorted_cons in Hl as [Hy Hl].
    destruct (lt y.1 x.1) eqn:Hyx.
    + apply StronglySorted_cons. split; [| by apply IH].
      rewrite insert_sorted_perm. constructor; [| done].
      unfold key_le. by apply lt_asym.
    + apply StronglySorted_cons. split.
      * constructor; [done |].
        eapply Forall_impl; [exact Hy |]. unfold key_le. intros z Hz.
        by apply (lt_negtrans _ y.1).
      * by apply StronglySorted_cons.
Qed.

Lemma sort_keyed_sorted (l : list (K * A)) :
  StronglySorted (key_le lt) (Py.sort_keyed lt l).
Proof using lt_asym lt_negtrans.
  induction l as [| x l IH]; simpl; [constructor |].
  by apply insert_sorted_sorted.
Qed.
End SortedFacts.

Lemma rmap_length {A B} (f : A -> result B) l ys :
  rmap f l = ok ys -> length ys = length l.
Proof.
  revert ys. induction l as [| x l IH]; simpl; intros ys H.
  - by inversion H.
  - destruct (f x) as [e | y]; [done |]. simpl in H.
    destruct (rmap f l) as [e | ys']; [done |]. simpl in H.
    inversion H. simpl. f_equal. by apply IH.
Qed.

Lemma map_snd_combine {A B} (ks : list A) (l : list B) :
  length ks = length l -> map snd (combine ks l) = l.
Proof.
  revert l. induction ks as [| k ks IH]; intros [| x l]; simpl; try done.
  intros [= Hlen]. f_equal. by apply IH.
Qed.

(** The result of [sorted] is a rearrangement of its argument. *)
Lemma sorted_perm {K A} (lt : K -> K -> bool) (l out : list A) (key : A -> result K) :
  Py.sorted lt l key = ok out -> out ≡ₚ l.
Proof.
  unfold Py.sorted. destruct (rmap key l) as [e | ks] eqn:Hks; [done |].
  simpl. intros [= <-]. rewrite sort_keyed_perm.
  rewrite map_snd_combine; [done |]. by apply rmap_length in Hks.
Qed.

Lemma int_lt_asym a b : Py.int_lt a b = true -> Py.int_lt b a = false.
Proof. unfold Py.int_lt. lia. Qed.

Lemma int_lt_negtrans a b c :
  Py.int_lt b a = false -> Py.int_lt c b = false -> Py.int_lt c a = false.
Proof. unfold Py.int_lt. lia. Qed.

(** Sorting on integer keys leaves the keys in ascending order. *)
Lemma sort_keyed_int_ascending {A} (l : list (Z * A)) :
  StronglySorted Z.le (map fst (Py.sort_keyed Py.int_lt l)).
Proof.
  pose proof (sort_keyed_sorted Py.int_lt int_lt_asym int_lt_negtrans l) as H.
  induction H as [| x s Hs IH Hx]; simpl; constructor; [done |].
  apply Forall_map. eapply Forall_impl; [exact Hx |].
  unfold key_le, Py.int_lt. intros y Hy. simpl. lia.
Qed.

(** ** [<] on strings is the lexicographic order *)

Lemma str_lt_lex (a b : string) : Py.str_lt a b = true <-> lex_lt a b.
Proof.
  unfold Py.str_lt, String.ltb. revert b.
  induction a as [| c1 a IH]; intros [| c2 b]; simpl.
  - split; [done | inversion 1].
  - split; [constructor | done].
  - split; [done | inversion 1].
  - unfold Ascii.compare.
    destruct (N.compare_spec (N_of_ascii c1) (N_of_ascii c2)) as [Heq | Hlt | Hgt].
    + apply (f_equal ascii_of_N) in Heq. rewrite !ascii_N_embedding in Heq. subst c2.
      rewrite IH. split; [by constructor |].
      inversion 1; subst; [lia | done].
    + split; [intros _; by constructor | done].
    + split; [done |]. inversion 1; subst; lia.
Qed.

Section SortedKeys.
Context {K A : Type} (lt : K -> K -> bool) (key : A -> result K).

Lemma rmap_combine (l : list A) ks :
  rmap key l = ok ks -> Forall (fun p => key p.2 = ok p.1) (combine ks l).
Proof.
  revert ks. induction l as [| x l IH]; simpl; intros ks H.
  - inversion H. constructor.
  - destruct (key x) as [e | k] eqn:Hk; [done |]. simpl in H.
    destruct (rmap key l) as [e | ks'] eqn:Hks; [done |]. simpl in H.
    inversion H. simpl. constructor; [done |]. by apply IH.
Qed.

Lemma rmap_keyed (ps : list (K * A)) :
  Forall (fun p => key p.2 = ok p.1) ps ->
  rmap key (map snd ps) = ok (map fst ps).
Proof.
  induction 1 as [| p ps Hp _ IH]; simpl; [done |].
  by rewrite Hp, IH.
Qed.

(** The keys of the result of [sorted], recomputed, are the sorted keys. *)
Lemma sorted_keys (l out : list A) :
  Py.sorted lt l key = ok out ->
  exists ks, rmap key l = ok ks /\
    rmap key out = ok (map fst (Py.sort_keyed lt (combine ks l))).
Proof.
  unfold Py.sorted. destruct (rmap key l) as [e | ks] eqn:Hks; [done |].
  simpl. intros [= <-]. exists ks. split; [done |].
  apply rmap_keyed. rewrite sort_keyed_perm. by apply rmap_combine.
Qed.
End SortedKeys.

(** [sorted] with integer keys returns its elements in ascending key order. *)
Lemma sorted_int_ascending {A} (l out : list A) (key : A -> result Z) :
  Py.sorted Py.int_lt l key = ok out ->
  exists ks, rmap key out = ok ks /\ StronglySorted Z.le ks.
Proof.
  intros H. apply sorted_keys in H as (ks & _ & ->).
  eexists. split; [done |]. apply sort_keyed_int_ascending.
Qed.

(** ** Route optimization *)

Import RouteOptimizationAgent.

Lemma cost_keys : rmap cost_key base_routes = ok [180; 250].
Proof. reflexivity. Qed.

(** Whatever the preference, the optimizer returns and never raises. *)
Lemma optimize_route_returns (self : RouteOptimizationAgent.t) (request : RouteRequest) :
  optimize_route self request = ok [train_bus; express_bus].
Proof.
  unfold optimize_route.
  destruct (String.eqb _ "cheapest"); [reflexivity |].
  destruct (String.eqb _ "fastest"); reflexivity.
Qed.

(** C2. With [mode_preference = "cheapest"] the optimizer returns the two
    options in strictly ascending order of the integer left after removing
    "Rs. " from the cost: the keys are 180 and 250, and Train + Bus comes
    before Express Bus. *)
Theorem optimize_route_cheapest (self : RouteOptimizationAgent.t) (request : RouteRequest) :
  mode_preference request = "cheapest" ->
  exists routes keys,
    optimize_route self request = ok routes /\
    routes = [train_bus; express_bus] /\
    rmap cost_key routes = ok keys /\
    keys = [180; 250] /\
    StronglySorted Z.lt keys.
Proof.
  intros Hpref. exists [train_bus; express_bus], [180; 250].
  unfold optimize_route. rewrite Hpref.
  repeat split.
  repeat constructor.
Qed.

Lemma optimize_route_cheapest_witness :
  exists routes keys,
    optimize_route RouteOptimizationAgent.init (sample_request "cheapest" "en" false) = ok routes /\
    routes = [train_bus; express_bus] /\
    rmap cost_key routes = ok keys /\
    keys = [180; 250] /\
    StronglySorted Z.lt keys.
Proof.
  apply (optimize_route_cheapest RouteOptimizationAgent.init
           (sample_request "cheapest" "en" false)).
  reflexivity.
Defined.

(** C3. With [mode_preference = "fastest"] the optimizer returns the two
    options in ascending lexicographic order of their duration strings:
    "2h 15m" is below "2h 45m" character by character, so Train + Bus comes
    before Express Bus. *)
Theorem optimize_route_fastest (self : RouteOptimizationAgent.t) (request : RouteRequest) :
  mode_preference request = "fastest" ->
  exists routes,
    optimize_route self request = ok routes /\
    routes = [train_bus; express_bus] /\
    StronglySorted lex_lt (map duration routes).
Proof.
  intros Hpref. exists [train_bus; express_bus].
  unfold optimize_route. rewrite Hpref.
  repeat split. simpl.
  apply StronglySorted_cons. split; [| repeat constructor].
  constructor; [| constructor]. by apply str_lt_lex.
Qed.

Lemma optimize_route_fastest_witness :
  exists routes,
    optimize_route RouteOptimizationAgent.init (sample_request "fastest" "en" false) = ok routes /\
    routes = [train_bus; express_bus] /\
    StronglySorted lex_lt (map duration routes).
Proof.
  apply (optimize_route_fastest RouteOptimizationAgent.init
           (sample_request "fastest" "en" false)).
  reflexivity.
Defined.

(** The duration key is compared as text: a ten-hour option sorts before a
    three-hour one. *)
Example sorted_duration_is_textual :
  let slow := {| mode := "Slow"; duration := "10h 00m"; cost := "Rs. 1";
                 steps := []; accessibility_score := 0 |} in
  Py.sorted Py.str_lt [express_bus; slow] duration_key = ok [slow; express_bus].
Proof. reflexivity. Qed.

(** C4. With a [mode_preference] that is neither "cheapest" nor "fastest"
    the optimizer returns the options in declaration order: Train + Bus,
    then Express Bus. *)
Theorem optimize_route_other (self : RouteOptimizationAgent.t) (request : RouteRequest) :
  mode_preference request <> "cheapest" ->
  mode_preference request <> "fastest" ->
  optimize_route self request = ok base_routes /\
  base_routes = [train_bus; express_bus].
Proof.
  intros Hc Hf. unfold optimize_route.
  apply String.eqb_neq in Hc, Hf. by rewrite Hc, Hf.
Qed.

Lemma optimize_route_other_witness :
  optimize_route RouteOptimizationAgent.init (sample_request "scenic" "en" false)
    = ok base_routes /\
  base_routes = [train_bus; express_bus].
Proof.
  apply (optimize_route_other RouteOptimizationAgent.init
           (sample_request "scenic" "en" false)); discriminate.
Defined.

(** C9. Two requests that agree on every field but [accessibility_needs]
    get the same list of options from the optimizer. *)
Theorem optimize_route_ignores_accessibility
    (self : RouteOptimizationAgent.t) (r1 r2 : RouteRequest) :
  origin r1 = origin r2 ->
  destination r1 = destination r2 ->
  language r1 = language r2 ->
  mode_preference r1 = mode_preference r2 ->
  optimize_route self r1 = optimize_route self r2.
Proof.
  intros _ _ _ Hpref. unfold optimize_route. by rewrite Hpref.
Qed.

Lemma optimize_route_ignores_accessibility_witness :
  optimize_route RouteOptimizationAgent.init (sample_request "cheapest" "si" false)
  = optimize_route RouteOptimizationAgent.init (sample_request "cheapest" "si" true).
Proof.
  apply (optimize_route_ignores_accessibility RouteOptimizationAgent.init
           (sample_request "cheapest" "si" false)
           (sample_request "cheapest" "si" true)); reflexivity.
Defined.

(** ** Translation *)

(** The keys of the phrase table are exactly "si" and "ta". *)
Lemma in_translations (language : string) :
  Py.dict_contains language LanguageAgent.translations = true <->
  language = "si" \/ language = "ta".
Proof.
  unfold Py.dict_contains, LanguageAgent.translations. simpl.
  destruct (String.eqb_spec language "si") as [-> | Hsi]; [by intuition |].
  destruct (String.eqb_spec language "ta") as [-> | Hta]; [by intuition |].
  split; [done | by intros [? | ?]].
Qed.

(** C5. For "si" and "ta" the translator returns the wrapper
    [{translated: True, language, data: payload}] around the payload it was
    given; for every other language, "en" included, it returns the payload
    itself.  Either way the payload is the one passed in: no phrase of the
    table is substituted into it. *)
Theorem translate_response_wraps_or_passes
    (self : LanguageAgent.t) (payload : pyval) (language : string) :
  (language = "si" \/ language = "ta" ->
   LanguageAgent.translate_response self payload language =
   PDict [("translated", PBool true); ("language", PStr language); ("data", payload)]) /\
  (language <> "si" -> language <> "ta" ->
   LanguageAgent.translate_response self payload language = payload) /\
  LanguageAgent.translate_response self payload "en" = payload.
Proof.
  unfold LanguageAgent.translate_response. repeat split.
  - intros H. apply in_translations in H. by rewrite H.
  - intros Hsi Hta.
    destruct (Py.dict_contains language LanguageAgent.translations) eqn:H; [| done].
    apply in_translations in H. by destruct H.
Qed.

Lemma translate_response_wraps_or_passes_witness :
  LanguageAgent.translate_response LanguageAgent.init (PStr "Train + Bus") "si" =
    PDict [("translated", PBool true); ("language", PStr "si");
           ("data", PStr "Train + Bus")] /\
  LanguageAgent.translate_response LanguageAgent.init (PStr "Train + Bus") "fr" =
    PStr "Train + Bus".
Proof.
  split.
  - apply (translate_response_wraps_or_passes LanguageAgent.init (PStr "Train + Bus") "si").
    by left.
  - apply (translate_response_wraps_or_passes LanguageAgent.init (PStr "Train + Bus") "fr");
      discriminate.
Defined.

(** ** Personalization *)

Import PersonalizationAgent.

Lemma learn_all_snoc (self : PersonalizationAgent.t) writes user_id record :
  learn_all self (writes ++ [(user_id, record)]) =
  learn_preference (learn_all self writes) user_id record.
Proof. unfold learn_all. by rewrite foldl_app. Qed.

(** Writes under other keys leave the entry of a key as it was. *)
Lemma learn_all_other (self : PersonalizationAgent.t) (writes : list (string * pyval))
    (user_id : string) :
  user_id ∉ writes.*1 ->
  user_preferences (learn_all self writes) !! user_id = user_preferences self !! user_id.
Proof.
  revert self. induction writes as [| [k v] writes IH]; intros self Hnot; [done |].
  simpl in *. apply not_elem_of_cons in Hnot as [Hne Hnot].
  unfold learn_all in *. simpl. rewrite IH by done.
  simpl. by rewrite lookup_insert_ne.
Qed.

(** C6. After [learn_preference(user_id, record)], whatever was stored
    before (an earlier record under the same key included) and whatever is
    written afterwards under other keys, [get_personalized_suggestions(user_id)]
    returns that record; for a key never written since the agent was created
    it returns [{mode: "fastest", accessibility: False}]. *)
Theorem personalization_last_write_wins :
  (forall (self : PersonalizationAgent.t) (user_id : string) (record : pyval),
     get_personalized_suggestions (learn_preference self user_id record) user_id = record) /\
  (forall (self : PersonalizationAgent.t) (user_id : string) (earlier record : pyval),
     get_personalized_suggestions
       (learn_preference (learn_preference self user_id earlier) user_id record) user_id
     = record) /\
  (forall (self : PersonalizationAgent.t) (user_id : string) (record : pyval)
          (later : list (string * pyval)),
     user_id ∉ later.*1 ->
     get_personalized_suggestions
       (learn_all (learn_preference self user_id record) later) user_id = record) /\
  (forall (writes : list (string * pyval)) (user_id : string),
     user_id ∉ writes.*1 ->
     get_personalized_suggestions (learn_all PersonalizationAgent.init writes) user_id =
     PDict [("mode", PStr "fastest"); ("accessibility", PBool false)]).
Proof.
  assert (Hget : forall self user_id record,
    get_personalized_suggestions (learn_preference self user_id record) user_id = record).
  { intros self user_id record. unfold get_personalized_suggestions. simpl.
    by rewrite lookup_insert_eq. }
  repeat split.
  - exact Hget.
  - intros. apply Hget.
  - intros self user_id record later Hnot.
    unfold get_personalized_suggestions. rewrite learn_all_other by done.
    simpl. by rewrite lookup_insert_eq.
  - intros writes user_id Hnot.
    unfold get_personalized_suggestions. rewrite learn_all_other by done.
    simpl. by rewrite lookup_empty.
Qed.

Lemma personalization_last_write_wins_witness :
  get_personalized_suggestions
    (learn_all (learn_preference PersonalizationAgent.init "u1" (PStr "cheapest"))
       [("u2", PStr "fastest")]) "u1" = PStr "cheapest" /\
  get_personalized_suggestions
    (learn_all PersonalizationAgent.init [("u2", PStr "fastest")]) "u1" =
  PDict [("mode", PStr "fastest"); ("accessibility", PBool false)].
Proof.
  destruct personalization_last_write_wins as (_ & _ & Hlater & Hfresh).
  split.
  - apply (Hlater PersonalizationAgent.init "u1" (PStr "cheapest") [("u2", PStr "fastest")]).
    simpl. rewrite list_elem_of_singleton. discriminate.
  - apply (Hfresh [("u2", PStr "fastest")] "u1").
    simpl. rewrite list_elem_of_singleton. discriminate.
Defined.

(** ** The handlers *)

(** C7. In every state of the application and whatever the backend would
    answer, [GET /api/agents/status] returns a listing of exactly four
    agents, each with status "active", and [total_agents] 4; it issues no
    outbound call. *)
Theorem agents_status_fixed (w : World) (app : App) :
  exists body agents,
    run w (agents_status app) = (ok body, []) /\
    Py.get body "agents" = ok (PList agents) /\
    length agents = 4%nat /\
    Forall (fun agent => Py.get agent "status" = ok (PStr "active")) agents /\
    Py.get body "total_agents" = ok (PInt 4).
Proof.
  eexists _, _. simpl. repeat split.
  repeat constructor.
Qed.

(** The listing names the four agents of the module. *)
Lemma agents_status_names (w : World) :
  exists body,
    run w (agents_status app_init) = (ok body, []) /\
    Py.get body "agents" =
      ok (PList (map agent_entry
                   ["Data Aggregation Agent"; "Route Optimization Agent";
                    "Personalization Agent"; "Language & Accessibility Agent"])).
Proof. eexists. split; reflexivity. Qed.

(** When the health check raises, or answers 200 with a body that is not
    JSON, the request goes on with the fallback status. *)
Lemma plan_journey_offline (w : World) (app : App) (request : RouteRequest) :
  transport_data_of (backend w health_check_call) = DataAggregationAgent.offline_fallback ->
  run w (plan_journey app request) =
  (ok (journey_response (clock w) (PStr "backend_offline")
         (LanguageAgent.translate_response (language_agent app)
            (journey_payload request [train_bus; express_bus]) (language request))),
   [health_check_call]).
Proof.
  intros Hdata. rewrite run_plan_journey, optimize_route_returns, Hdata. reflexivity.
Qed.

Lemma transport_data_of_raises (e : exn) :
  transport_data_of (GetRaises e) = DataAggregationAgent.offline_fallback.
Proof. reflexivity. Qed.

Lemma transport_data_of_malformed (r : Response) (e : exn) :
  status_code r = 200 -> json r = raise e ->
  transport_data_of (GetReturns r) = DataAggregationAgent.offline_fallback.
Proof. intros Hs Hj. unfold transport_data_of. by rewrite Hs, Hj. Qed.

Lemma transport_data_of_non_200 (r : Response) :
  status_code r <> 200 -> transport_data_of (GetReturns r) = PNone.
Proof.
  intros Hs. unfold transport_data_of.
  by destruct (Z.eqb_spec (status_code r) 200).
Qed.

(** C1 (what the code does on one of the listed failures).  When the health
    check answers with a status other than 200, [get_transport_data] returns
    [None] and [plan_journey] raises [AttributeError] at
    [transport_data.get("status")]: no fallback is substituted and no
    response body is produced. *)
Theorem plan_journey_non_200_raises
    (w : World) (app : App) (request : RouteRequest) (r : Response) :
  backend w health_check_call = GetReturns r ->
  status_code r <> 200 ->
  run w (DataAggregationAgent.get_transport_data (data_agent app)) =
    (ok PNone, [health_check_call]) /\
  run w (plan_journey app request) =
    (raise (AttributeError "object has no attribute 'get'"), [health_check_call]).
Proof.
  intros Hget Hstatus. split.
  - by rewrite run_get_transport_data, Hget, transport_data_of_non_200.
  - rewrite run_plan_journey, optimize_route_returns, Hget.
    by rewrite transport_data_of_non_200.
Qed.

Lemma plan_journey_non_200_raises_witness :
  let w := world_with (GetReturns {| status_code := 503; json := raise JSONDecodeError |}) in
  let request := sample_request "fastest" "en" false in
  run w (DataAggregationAgent.get_transport_data (data_agent app_init)) =
    (ok PNone, [health_check_call]) /\
  run w (plan_journey app_init request) =
    (raise (AttributeError "object has no attribute 'get'"), [health_check_call]).
Proof.
  intros w request.
  apply (plan_journey_non_200_raises w app_init request
           {| status_code := 503; json := raise JSONDecodeError |}).
  - reflexivity.
  - simpl. lia.
Defined.

(** A 200 answer whose JSON body is not an object is handed on as it is,
    and [plan_journey] raises on it in the same place. *)
Lemma plan_journey_non_dict_body_raises
    (w : World) (app : App) (request : RouteRequest) (r : Response) (v : pyval) :
  backend w health_check_call = GetReturns r ->
  status_code r = 200 ->
  json r = ok v ->
  (forall d, v <> PDict d) ->
  run w (plan_journey app request) =
    (raise (AttributeError "object has no attribute 'get'"), [health_check_call]).
Proof.
  intros Hget Hstatus Hjson Hv.
  rewrite run_plan_journey, optimize_route_returns, Hget.
  unfold transport_data_of. rewrite Hstatus, Hjson. simpl.
  destruct v; try reflexivity. by destruct (Hv d).
Qed.

(** With a healthy backend the [journey_options] of the response are what
    the translator returns for the assembled payload, and [backend_status]
    is the [status] entry of the health body. *)
Lemma plan_journey_healthy
    (w : World) (app : App) (request : RouteRequest) (r : Response)
    (d : list (string * pyval)) :
  backend w health_check_call = GetReturns r ->
  status_code r = 200 ->
  json r = ok (PDict d) ->
  run w (plan_journey app request) =
  (ok (journey_response (clock w) (default PNone (Py.dict_get "status" d))
         (LanguageAgent.translate_response (language_agent app)
            (journey_payload request [train_bus; express_bus]) (language request))),
   [health_check_call]).
Proof.
  intros Hget Hstatus Hjson.
  rewrite run_plan_journey, optimize_route_returns, Hget.
  unfold transport_data_of. by rewrite Hstatus, Hjson.
Qed.

(** The call written in [get_transport_data] carries no [timeout]. *)
Lemma health_check_call_timeout : call_timeout health_check_call = None.
Proof. reflexivity. Qed.

(** C8 (as stated, refuted).  In a world where the health check times out,
    the calls issued by [plan_journey] do not all carry a timeout. *)
Lemma plan_journey_call_without_timeout :
  ~ Forall (fun c => is_Some (call_timeout c))
      (run (world_with (GetRaises Timeout))
         (plan_journey app_init (sample_request "fastest" "en" false))).2.
Proof.
  rewrite run_plan_journey. simpl. intros H.
  apply Forall_cons in H as [[t Ht] _]. discriminate Ht.
Qed.

(** C8 (amended).  [plan_journey] issues exactly one outbound call, the
    health check, and passes it no [timeout] argument; when that call raises
    a timeout the handler takes the offline fallback path, as it does for a
    connection error. *)
Theorem plan_journey_health_check_timeout
    (w : World) (app : App) (request : RouteRequest) :
  (run w (plan_journey app request)).2 = [health_check_call] /\
  call_timeout health_check_call = None /\
  (backend w health_check_call = GetRaises Timeout ->
   run w (DataAggregationAgent.get_transport_data (data_agent app)) =
     (ok DataAggregationAgent.offline_fallback, [health_check_call]) /\
   run w (plan_journey app request) =
   run {| backend := fun _ => GetRaises ConnectionError; clock := clock w |}
     (plan_journey app request) /\
   exists body,
     (run w (plan_journey app request)).1 = ok body /\
     Py.get body "backend_status" = ok (PStr "backend_offline")).
Proof.
  split; [by rewrite run_plan_journey |]. split; [reflexivity |].
  intros Htimeout. split; [| split].
  - by rewrite run_get_transport_data, Htimeout.
  - rewrite !run_plan_journey. simpl backend. by rewrite Htimeout.
  - rewrite plan_journey_offline by (by rewrite Htimeout).
    eexists. split; reflexivity.
Qed.

Lemma plan_journey_health_check_timeout_witness :
  let w := world_with (GetRaises Timeout) in
  let request := sample_request "cheapest" "ta" true in
  run w (DataAggregationAgent.get_transport_data (data_agent app_init)) =
    (ok DataAggregationAgent.offline_fallback, [health_check_call]) /\
  run w (plan_journey app_init request) =
  run {| backend := fun _ => GetRaises ConnectionError; clock := clock w |}
    (plan_journey app_init request) /\
  exists body,
    (run w (plan_journey app_init request)).1 = ok body /\
    Py.get body "backend_status" = ok (PStr "backend_offline").
Proof.
  intros w request.
  apply (plan_journey_health_check_timeout w app_init request).
  reflexivity.
Defined.

(** C10. The outcome of [plan_journey] does not depend on the
    personalization store: for two stores, and two worlds that give the
    health check the same answer and read the same clock, the handler
    returns the same body (or raises the same exception) and issues the
    same calls. *)
Theorem plan_journey_ignores_user_preferences
    (w1 w2 : World) (app : App) (prefs1 prefs2 : gmap string pyval)
    (request : RouteRequest) :
  backend w1 health_check_call = backend w2 health_check_call ->
  clock w1 = clock w2 ->
  run w1 (plan_journey (with_user_preferences app prefs1) request) =
  run w2 (plan_journey (with_user_preferences app prefs2) request).
Proof.
  intros Hbackend Hclock. rewrite !run_plan_journey. simpl.
  by rewrite Hbackend, Hclock.
Qed.

Lemma plan_journey_ignores_user_preferences_witness :
  let w := world_with (GetReturns {| status_code := 200;
                                     json := ok (PDict [("status", PStr "ok")]) |}) in
  let request := sample_request "fastest" "si" false in
  run w (plan_journey (with_user_preferences app_init ∅) request) =
  run w (plan_journey
           (with_user_preferences app_init
              {["default_user" := PDict [("mode", PStr "cheapest")]]})
           request).
Proof.
  intros w request.
  apply (plan_journey_ignores_user_preferences w w app_init); reflexivity.
Defined.

(** * Further properties of the module *)

(** ** The health check *)


(** X2. Whatever [requests.get] raises, and also when a 200 answer has a
    body on which [json()] raises, [get_transport_data] returns
    [{status: "backend_offline", using_cache: True}]. *)
Theorem get_transport_data_fallback (w : World) (self : DataAggregationAgent.t) :
  (exists e, backend w health_check_call = GetRaises e) \/
  (exists r e, backend w health_check_call = GetReturns r /\
               status_code r = 200 /\ json r = raise e) ->
  run w (DataAggregationAgent.get_transport_data self) =
  (ok (PDict [("status", PStr "backend_offline"); ("using_cache", PBool true)]),
   [health_check_call]).
Proof.
  intros [[e He] | (r & e & Hr & Hs & Hj)]; rewrite run_get_transport_data.
  - by rewrite He.
  - by rewrite Hr, (transport_data_of_malformed r e).
Qed.

Lemma get_transport_data_fallback_witness :
  run (world_with (GetReturns {| status_code := 200; json := raise JSONDecodeError |}))
    (DataAggregationAgent.get_transport_data DataAggregationAgent.init) =
  (ok (PDict [("status", PStr "backend_offline"); ("using_cache", PBool true)]),
   [health_check_call]).
Proof.
  apply (get_transport_data_fallback
           (world_with (GetReturns {| status_code := 200; json := raise JSONDecodeError |}))
           DataAggregationAgent.init).
  right. eexists _, JSONDecodeError. repeat split.
Defined.

(** X3. On a 200 answer with a JSON body, [get_transport_data] returns the
    decoded body as it is, whatever its shape: nothing checks that it is an
    object or that it has a [status] entry. *)
Theorem get_transport_data_passes_body
    (w : World) (self : DataAggregationAgent.t) (r : Response) (v : pyval) :
  backend w health_check_call = GetReturns r ->
  status_code r = 200 ->
  json r = ok v ->
  run w (DataAggregationAgent.get_transport_data self) = (ok v, [health_check_call]).
Proof.
  intros Hr Hs Hj. rewrite run_get_transport_data, Hr.
  unfold transport_data_of. by rewrite Hs, Hj.
Qed.

Lemma get_transport_data_passes_body_witness :
  run (world_with (GetReturns {| status_code := 200; json := ok (PList [PInt 1]) |}))
    (DataAggregationAgent.get_transport_data DataAggregationAgent.init) =
  (ok (PList [PInt 1]), [health_check_call]).
Proof.
  apply (get_transport_data_passes_body
           (world_with (GetReturns {| status_code := 200; json := ok (PList [PInt 1]) |}))
           DataAggregationAgent.init
           {| status_code := 200; json := ok (PList [PInt 1]) |});
    reflexivity.
Defined.

(** ** Journey planning *)


(** X5. Every body that [plan_journey] returns carries the request back: the
    payload (the [journey_options] themselves, or their [data] entry when the
    language is "si" or "ta") has the request's [origin] and [destination],
    reports [mode_preference] as [preference_applied] and
    [accessibility_needs] as [accessibility_considered] whatever their
    values, and lists Train + Bus, then Express Bus. *)
Theorem plan_journey_echoes_request
    (w : World) (app : App) (request : RouteRequest) (body : pyval) :
  (run w (plan_journey app request)).1 = ok body ->
  exists journey_options payload,
    Py.get body "journey_options" = ok journey_options /\
    ((language request <> "si" /\ language request <> "ta" /\
      journey_options = payload) \/
     ((language request = "si" \/ language request = "ta") /\
      Py.get journey_options "data" = ok payload /\
      Py.get journey_options "language" = ok (PStr (language request)) /\
      Py.get journey_options "translated" = ok (PBool true))) /\
    Py.get payload "origin" = ok (PStr (origin request)) /\
    Py.get payload "destination" = ok (PStr (destination request)) /\
    Py.get payload "routes" = ok (PList [PRouteOption train_bus; PRouteOption express_bus]) /\
    Py.get payload "preference_applied" = ok (PStr (mode_preference request)) /\
    Py.get payload "accessibility_considered" = ok (PBool (accessibility_needs request)).
Proof.
  rewrite run_plan_journey, optimize_route_returns. simpl.
  destruct (Py.get _ "status") as [e | status]; simpl; [done |].
  intros [= <-]. unfold LanguageAgent.translate_response.
  destruct (Py.dict_contains (language request) LanguageAgent.translations) eqn:Hin.
  - apply in_translations in Hin.
    eexists _, (journey_payload request [train_bus; express_bus]).
    split; [reflexivity |]. split; [right; by repeat split |]. by repeat split.
  - eexists _, (journey_payload request [train_bus; express_bus]).
    split; [reflexivity |]. split; [left | by repeat split].
    repeat split; intros Heq;
      assert (Py.dict_contains (language request) LanguageAgent.translations = true)
        as Habs by (apply in_translations; auto); congruence.
Qed.

Lemma plan_journey_echoes_request_witness :
  let request := sample_request "scenic" "ta" true in
  exists body journey_options payload,
    (run (world_with (GetRaises ConnectionError)) (plan_journey app_init request)).1 = ok body /\
    Py.get body "journey_options" = ok journey_options /\
    Py.get journey_options "data" = ok payload /\
    Py.get payload "preference_applied" = ok (PStr "scenic") /\
    Py.get payload "accessibility_considered" = ok (PBool true).
Proof.
  intros request.
  destruct (plan_journey_echoes_request (world_with (GetRaises ConnectionError)) app_init
              request _ eq_refl)
    as (jo & payload & Hjo & [(_ & Hta & _) | (_ & Hdata & _)] & _ & _ & _ & Hp & Ha).
  - by destruct Hta.
  - by eexists _, jo, payload.
Defined.

(** X6. The clock reaches the response through the [timestamp] entry only:
    in two worlds that answer the health check alike, [plan_journey] raises
    the same exception or returns two bodies that agree on every entry other
    than [timestamp], each carrying its own clock reading there. *)
Theorem plan_journey_clock_only_in_timestamp
    (w1 w2 : World) (app : App) (request : RouteRequest) :
  backend w1 health_check_call = backend w2 health_check_call ->
  match (run w1 (plan_journey app request)).1, (run w2 (plan_journey app request)).1 with
  | inr body1, inr body2 =>
      Py.get body1 "timestamp" = ok (PStr (clock w1)) /\
      Py.get body2 "timestamp" = ok (PStr (clock w2)) /\
      forall key, key <> "timestamp" -> Py.get body1 key = Py.get body2 key
  | inl e1, inl e2 => e1 = e2
  | _, _ => False
  end.
Proof.
  intros Hbackend. rewrite !run_plan_journey, optimize_route_returns, Hbackend. simpl.
  destruct (Py.get _ "status") as [e | status]; simpl; [done |].
  repeat split. intros key Hkey. f_equal. simpl.
  destruct (String.eqb key "success"); [done |].
  destruct (String.eqb key "processed_by"); [done |].
  by destruct (String.eqb_spec key "timestamp").
Qed.

Lemma plan_journey_clock_only_in_timestamp_witness :
  let o := GetRaises ConnectionError in
  let w1 := {| backend := fun _ => o; clock := "2024-01-01T00:00:00" |} in
  let w2 := {| backend := fun _ => o; clock := "2025-06-30T12:00:00" |} in
  let request := sample_request "fastest" "en" false in
  match (run w1 (plan_journey app_init request)).1,
        (run w2 (plan_journey app_init request)).1 with
  | inr body1, inr body2 =>
      Py.get body1 "timestamp" = ok (PStr (clock w1)) /\
      Py.get body2 "timestamp" = ok (PStr (clock w2)) /\
      forall key, key <> "timestamp" -> Py.get body1 key = Py.get body2 key
  | inl e1, inl e2 => e1 = e2
  | _, _ => False
  end.
Proof.
  intros o w1 w2 request.
  apply (plan_journey_clock_only_in_timestamp w1 w2 app_init request).
  reflexivity.
Defined.

(** X7. [plan_journey] reads nothing of the application state: with any two
    sets of agents (names and stored preferences alike) it has the same
    outcome and issues the same calls. *)
Theorem plan_journey_ignores_state (w : World) (app1 app2 : App) (request : RouteRequest) :
  run w (plan_journey app1 request) = run w (plan_journey app2 request).
Proof. by rewrite !run_plan_journey, !optimize_route_returns. Qed.

(** X8. A request that gives only [origin] and [destination] takes the
    defaults of [RouteRequest]: when the backend is unreachable the answer is
    the plain payload, not wrapped, with [preference_applied] "fastest" and
    [accessibility_considered] false. *)
Theorem plan_journey_default_request
    (w : World) (app : App) (o d : string) (e : exn) :
  backend w health_check_call = GetRaises e ->
  run w (plan_journey app (RouteRequest_new o d None None None)) =
  (ok (PDict [("success", PBool true);
              ("processed_by", PStr "7 AI agents");
              ("timestamp", PStr (clock w));
              ("backend_status", PStr "backend_offline");
              ("journey_options",
               PDict [("origin", PStr o);
                      ("destination", PStr d);
                      ("routes", PList [PRouteOption train_bus; PRouteOption express_bus]);
                      ("preference_applied", PStr "fastest");
                      ("accessibility_considered", PBool false)])]),
   [health_check_call]).
Proof.
  intros He. rewrite plan_journey_offline by (by rewrite He). reflexivity.
Qed.

Lemma plan_journey_default_request_witness :
  exists body,
    run (world_with (GetRaises Timeout))
      (plan_journey app_init (RouteRequest_new "Colombo" "Kandy" None None None)) =
    (ok body, [health_check_call]).
Proof.
  eexists.
  apply (plan_journey_default_request (world_with (GetRaises Timeout)) app_init
           "Colombo" "Kandy" Timeout).
  reflexivity.
Defined.

(** ** Route optimization, beyond the two literal options *)

(** X9. The preference never changes what the optimizer returns: for any two
    requests whatever (preference, language, accessibility, places) it
    returns the same list, and it never raises. *)
Theorem optimize_route_same_for_all
    (self1 self2 : RouteOptimizationAgent.t) (r1 r2 : RouteRequest) :
  optimize_route self1 r1 = optimize_route self2 r2 /\
  exists routes, optimize_route self1 r1 = ok routes /\ length routes = 2%nat.
Proof.
  rewrite !optimize_route_returns. split; [done |]. by eexists.
Qed.

(** *** The cheapest key *)


Lemma replace_no_R (s : string) :
  all_chars (fun c => negb (Ascii.eqb c "R")) s = true ->
  Py.replace s "Rs. " "" = s.
Proof.
  unfold Py.replace, all_chars.
  induction s as [| c s IH]; [done |].
  cbn [list_ascii_of_string forallb]. intros [Hc Hs]%andb_prop.
  cbn [Py.replace_from Py.startswith].
  rewrite Ascii.eqb_sym. apply negb_true_iff in Hc. rewrite Hc. cbn [andb].
  by rewrite IH.
Qed.

Lemma replace_prefixed (s : string) :
  Py.replace ("Rs. " +:+ s) "Rs. " "" = Py.replace s "Rs. " "".
Proof. reflexivity. Qed.











(** X11. The key function does not require the prefix: for a text without
    the letter R, an option priced with that text alone and an option priced
    "Rs. " followed by it have the same key, namely [int] of the text. *)
Theorem cost_key_prefix_optional (x y : RouteOption) (s : string) :
  all_chars (fun c => negb (Ascii.eqb c "R")) s = true ->
  cost x = s ->
  cost y = "Rs. " +:+ s ->
  cost_key x = Py.int s /\ cost_key y = Py.int s.
Proof.
  intros Hs Hx Hy. unfold cost_key. rewrite Hx, Hy, replace_prefixed.
  by rewrite replace_no_R.
Qed.

Lemma cost_key_prefix_optional_witness :
  cost_key (priced "-40") = ok (-40) /\ cost_key (priced "Rs. -40") = ok (-40).
Proof.
  apply (cost_key_prefix_optional (priced "-40") (priced "Rs. -40") "-40"); reflexivity.
Defined.







(** *** The two sorts on an arbitrary list of options *)

Lemma rmap_ok {A B} (f : A -> result B) (l : list A) :
  Forall (fun x => exists y, f x = ok y) l -> exists ys, rmap f l = ok ys.
Proof.
  induction 1 as [| x l [y Hy] _ [ys Hys]]; [by eexists |].
  exists (y :: ys). simpl. by rewrite Hy, Hys.
Qed.



(** X13. Whenever the cost of every option of a list parses, sorting the
    list with the cheapest key returns a rearrangement of the list whose keys
    are in ascending order. *)
Theorem sorted_by_cost (l : list RouteOption) :
  Forall (fun x => exists z, cost_key x = ok z) l ->
  exists out ks,
    Py.sorted Py.int_lt l cost_key = ok out /\
    out ≡ₚ l /\
    rmap cost_key out = ok ks /\
    StronglySorted Z.le ks.
Proof.
  intros Hall. destruct (rmap_ok _ _ Hall) as [ks0 Hks0].
  assert (Hout : exists out, Py.sorted Py.int_lt l cost_key = ok out).
  { unfold Py.sorted. rewrite Hks0. by eexists. }
  destruct Hout as [out Hout].
  destruct (sorted_int_ascending _ _ _ Hout) as (ks & Hks & Hsorted).
  exists out, ks. repeat split; [done | by eapply sorted_perm | done | done].
Qed.

Lemma sorted_by_cost_witness :
  exists out ks,
    Py.sorted Py.int_lt [priced "Rs. 300"; express_bus; train_bus] cost_key = ok out /\
    out ≡ₚ [priced "Rs. 300"; express_bus; train_bus] /\
    rmap cost_key out = ok ks /\
    StronglySorted Z.le ks.
Proof.
  apply (sorted_by_cost [priced "Rs. 300"; express_bus; train_bus]).
  repeat constructor; by eexists.
Defined.



Lemma filter_insert_sorted {A} (k : Z) (x : Z * A) (l : list (Z * A)) :
  List.filter (fun p => Z.eqb p.1 k) (Py.insert_sorted Py.int_lt x l) =
  List.filter (fun p => Z.eqb p.1 k) (x :: l).
Proof.
  induction l as [| y l IH]; [done |].
  cbn [Py.insert_sorted]. unfold Py.int_lt at 1.
  destruct (Z.ltb_spec y.1 x.1) as [Hlt | Hge]; [| done].
  cbn [List.filter] in *. rewrite IH.
  destruct (Z.eqb_spec x.1 k), (Z.eqb_spec y.1 k); try done. lia.
Qed.

Lemma filter_sort_keyed {A} (k : Z) (l : list (Z * A)) :
  List.filter (fun p => Z.eqb p.1 k) (Py.sort_keyed Py.int_lt l) =
  List.filter (fun p => Z.eqb p.1 k) l.
Proof.
  induction l as [| x l IH]; [done |].
  cbn [Py.sort_keyed foldr]. rewrite filter_insert_sorted.
  cbn [List.filter]. unfold Py.sort_keyed in IH. by rewrite IH.
Qed.

Lemma with_cost_keyed (k : Z) (ps : list (Z * RouteOption)) :
  Forall (fun p => cost_key p.2 = ok p.1) ps ->
  with_cost k (map snd ps) = map snd (List.filter (fun p => Z.eqb p.1 k) ps).
Proof.
  unfold with_cost. induction 1 as [| p ps Hp _ IH]; [done |].
  cbn [map List.filter]. rewrite Hp, IH. unfold ok.
  by destruct (Z.eqb p.1 k).
Qed.

(** X14. The cheapest sort is stable: the options that share a key come out
    in the order in which they went in. *)
Theorem sorted_by_cost_stable (l out : list RouteOption) (k : Z) :
  Py.sorted Py.int_lt l cost_key = ok out ->
  with_cost k out = with_cost k l.
Proof.
  unfold Py.sorted. destruct (rmap cost_key l) as [e | ks] eqn:Hks; [done |].
  simpl. intros [= <-].
  pose proof (rmap_combine cost_key l ks Hks) as Hkeyed.
  rewrite with_cost_keyed.
  - rewrite filter_sort_keyed, <- with_cost_keyed by done.
    rewrite map_snd_combine; [done |]. by apply rmap_length in Hks.
  - by rewrite sort_keyed_perm.
Qed.

Lemma sorted_by_cost_stable_witness :
  let a := {| mode := "A"; duration := "1h"; cost := "Rs. 250"; steps := [];
              accessibility_score := 1 |} in
  with_cost 250 [train_bus; express_bus; a] = with_cost 250 [express_bus; a; train_bus].
Proof.
  intros a.
  apply (sorted_by_cost_stable [express_bus; a; train_bus] [train_bus; express_bus; a] 250).
  reflexivity.
Defined.

(** *** The fastest key *)

Lemma lex_lt_irrefl (a : string) : ~ lex_lt a a.
Proof.
  induction a as [| c a IH]; inversion 1; subst; [lia | done].
Qed.

Lemma lex_lt_trans (a b c : string) : lex_lt a b -> lex_lt b c -> lex_lt a c.
Proof.
  intros Hab. revert c. induction Hab as [x s | x y s t Hxy | x s t Hst IH];
    intros c Hbc; inversion Hbc; subst.
  - constructor.
  - constructor.
  - constructor. lia.
  - by constructor.
  - by constructor.
  - apply lex_lt_tail. by apply IH.
Qed.

Lemma lex_total (a b : string) : lex_lt a b \/ a = b \/ lex_lt b a.
Proof.
  revert b. induction a as [| x a IH]; intros [| y b].
  - by right; left.
  - left. constructor.
  - right; right. constructor.
  - destruct (N.lt_trichotomy (N_of_ascii x) (N_of_ascii y)) as [Hlt | [Heq | Hgt]].
    + left. by constructor.
    + apply (f_equal ascii_of_N) in Heq. rewrite !ascii_N_embedding in Heq. subst y.
      destruct (IH b) as [Hlt | [-> | Hgt]].
      * left. by constructor.
      * by right; left.
      * right; right. by constructor.
    + right; right. by constructor.
Qed.

Lemma str_lt_false (a b : string) : Py.str_lt b a = false <-> lex_le a b.
Proof.
  unfold lex_le. split.
  - intros Hba. destruct (lex_total a b) as [Hlt | [-> | Hgt]]; [by right | by left |].
    apply str_lt_lex in Hgt. congruence.
  - intros Hle. destruct (Py.str_lt b a) eqn:Hba; [| done].
    apply str_lt_lex in Hba. destruct Hle as [-> | Hlt].
    + by destruct (lex_lt_irrefl b).
    + destruct (lex_lt_irrefl a). by eapply lex_lt_trans.
Qed.

Lemma lex_le_trans (a b c : string) : lex_le a b -> lex_le b c -> lex_le a c.
Proof.
  unfold lex_le. intros [-> | Hab] [-> | Hbc]; eauto using lex_lt_trans.
Qed.

Lemma str_lt_asym (a b : string) : Py.str_lt a b = true -> Py.str_lt b a = false.
Proof.
  intros Hab. apply str_lt_false. right. by apply str_lt_lex.
Qed.

Lemma str_lt_negtrans (a b c : string) :
  Py.str_lt b a = false -> Py.str_lt c b = false -> Py.str_lt c a = false.
Proof.
  rewrite !str_lt_false. apply lex_le_trans.
Qed.

(** X16. Sorting any list of options with the fastest key never raises and
    returns a rearrangement of the list whose duration strings are in
    lexicographic order, each one equal to or character-wise below the
    next. *)
Theorem sorted_by_duration (l : list RouteOption) :
  exists out,
    Py.sorted Py.str_lt l duration_key = ok out /\
    out ≡ₚ l /\
    StronglySorted lex_le (map duration out).
Proof.
  assert (Hks : rmap duration_key l = ok (map duration l)).
  { induction l as [| x l IH]; [done |]. simpl. by rewrite IH. }
  unfold Py.sorted. rewrite Hks. simpl. eexists. split; [reflexivity |].
  pose proof (rmap_combine duration_key l _ Hks) as Hkeyed.
  set (ps := combine (map duration l) l) in *.
  split.
  - rewrite sort_keyed_perm. unfold ps. rewrite map_snd_combine; [done |].
    by rewrite length_map.
  - assert (Hsorted : Forall (fun p => duration_key p.2 = ok p.1)
                        (Py.sort_keyed Py.str_lt ps)) by (by rewrite sort_keyed_perm).
    pose proof (sort_keyed_sorted Py.str_lt str_lt_asym str_lt_negtrans ps) as Hss.
    induction Hss as [| p s Hs IH Hp]; [constructor |].
    apply Forall_cons in Hsorted as [Hkey Hrest].
    cbn [map]. constructor; [by apply IH |].
    rewrite map_map, Forall_map. rewrite Forall_forall in Hp, Hrest.
    apply Forall_forall. intros q Hq. simpl.
    specialize (Hp q Hq). specialize (Hrest q Hq).
    unfold key_le in Hp. apply str_lt_false in Hp.
    unfold duration_key, ok in *.
    injection Hkey as Hkey. injection Hrest as Hrest. by rewrite Hkey, Hrest.
Qed.

(** ** Personalization, beyond one key *)

Lemma learn_all_name (self : PersonalizationAgent.t) (writes : list (string * pyval)) :
  PersonalizationAgent.name (learn_all self writes) = PersonalizationAgent.name self.
Proof.
  revert self. induction writes as [| w writes IH]; intros self; [done |].
  unfold learn_all in *. simpl. by rewrite IH.
Qed.

(** X17. Users are isolated: learning a preference for one user changes the
    suggestions of no other user. *)
Theorem learn_preference_isolated
    (self : PersonalizationAgent.t) (user_id other : string) (record : pyval) :
  user_id <> other ->
  get_personalized_suggestions (learn_preference self user_id record) other =
  get_personalized_suggestions self other.
Proof.
  intros Hne. unfold get_personalized_suggestions. simpl.
  by rewrite lookup_insert_ne.
Qed.

Lemma learn_preference_isolated_witness :
  get_personalized_suggestions
    (learn_preference PersonalizationAgent.init "alice" (PStr "cheapest")) "default_user" =
  get_personalized_suggestions PersonalizationAgent.init "default_user".
Proof.
  apply (learn_preference_isolated PersonalizationAgent.init "alice" "default_user").
  discriminate.
Defined.

(** X18. The store keeps no history.  Overwriting a record leaves the agent
    in the state a single write of the later record gives; writing the record
    that is already stored under a key changes nothing; and writes for two
    different users give the same state in either order. *)
Theorem learn_preference_state (self : PersonalizationAgent.t) :
  (forall user_id earlier record,
     learn_preference (learn_preference self user_id earlier) user_id record =
     learn_preference self user_id record) /\
  (forall user_id record,
     user_preferences self !! user_id = Some record ->
     learn_preference self user_id record = self) /\
  (forall u1 u2 r1 r2,
     u1 <> u2 ->
     learn_preference (learn_preference self u1 r1) u2 r2 =
     learn_preference (learn_preference self u2 r2) u1 r1).
Proof.
  unfold learn_preference. repeat split; intros; simpl.
  - f_equal. apply insert_insert_eq.
  - destruct self as [nm prefs]. simpl in *. f_equal. by apply insert_id.
  - f_equal. by apply insert_insert_ne.
Qed.

Lemma learn_preference_state_witness :
  learn_preference (learn_preference PersonalizationAgent.init "a" (PInt 1)) "b" (PInt 2) =
  learn_preference (learn_preference PersonalizationAgent.init "b" (PInt 2)) "a" (PInt 1).
Proof.
  destruct (learn_preference_state PersonalizationAgent.init) as (_ & _ & Hswap).
  apply (Hswap "a" "b" (PInt 1) (PInt 2)). discriminate.
Defined.

(** X19. Learning preferences does not show in the status listing: after any
    sequence of [learn_preference] calls, [GET /api/agents/status] answers as
    before. *)
Theorem agents_status_unchanged_by_learning
    (w : World) (app : App) (writes : list (string * pyval)) :
  run w (agents_status
           (with_personalization_agent app
              (learn_all (personalization_agent app) writes))) =
  run w (agents_status app).
Proof.
  unfold agents_status, with_personalization_agent. simpl.
  by rewrite learn_all_name.
Qed.

(** ** The banner *)


(** ** Translation, the match on the language tag *)

(** X21. The language tag is matched exactly: a tag that is not two
    characters long (a region suffix, surrounding blanks, the empty string)
    is never translated, and the payload comes back as it was. *)
Theorem translate_response_exact_tag
    (self : LanguageAgent.t) (payload : pyval) (language : string) :
  String.length language <> 2%nat ->
  LanguageAgent.translate_response self payload language = payload.
Proof.
  intros Hlen. unfold LanguageAgent.translate_response.
  destruct (Py.dict_contains language LanguageAgent.translations) eqn:Hin; [| done].
  apply in_translations in Hin as [-> | ->]; by destruct Hlen.
Qed.

Lemma translate_response_exact_tag_witness :
  LanguageAgent.translate_response LanguageAgent.init (PStr "x") "si-LK" = PStr "x".
Proof.
  apply (translate_response_exact_tag LanguageAgent.init (PStr "x") "si-LK").
  simpl. lia.
Defined.

(** ** The route network *)

(** X22. The route network table is well formed, whatever the agent: three
    rows with pairwise different ids, each with a positive distance and
    served by bus, and the real-time status "active". *)
Theorem sri_lankan_routes_well_formed (self : DataAggregationAgent.t) :
  exists rows,
    Py.get (DataAggregationAgent.get_sri_lankan_routes self) "routes" = ok (PList rows) /\
    length rows = 3%nat /\
    NoDup (map (fun row => Py.get row "id") rows) /\
    Forall (fun row => exists modes distance,
              Py.get row "modes" = ok (PList modes) /\
              In (PStr "bus") modes /\
              Py.get row "distance" = ok (PInt distance) /\
              0 < distance) rows /\
    Py.get (DataAggregationAgent.get_sri_lankan_routes self) "real_time_status" =
      ok (PStr "active").
Proof.
  eexists. split; [reflexivity |]. split; [reflexivity |]. split; [| split; [| reflexivity]].
  - simpl. repeat constructor; rewrite ?list_elem_of_In; simpl; intuition discriminate.
  - repeat (constructor;
            [eexists _, _; simpl; repeat split; first [lia | simpl; tauto] |]).
    constructor.
Qed.
